(** * textconf: configuration-to-template binding

    A shallow embedding of [textconf.config] ([Renderable], [BaseConfig])
    and [textconf.enum] ([RenderableEnum]), together with the template
    resolver [textconf.template.get_template_file].

    Python objects that are mutated in place (the configuration instance,
    dictionaries) and the global state that user-written callables can
    reach live in an explicit [World]; every call that leaves the
    embedded code (a hook of the configuration class, the resolver, the
    template engine) is recorded in a call log, so that statements such as
    "is never invoked" or "is invoked first" can be written down. *)

From stdpp Require Import gmap strings list sorting.

(** ** Paths, values, exceptions *)

(** A [pathlib.Path]: anchored at the root or not, and its components. *)
Record Path := MkPath { is_absolute : bool; parts : list string }.

#[global] Instance Path_eq_dec : EqDecision Path.
Proof. solve_decision. Defined.

(** [a / b] of pathlib: an absolute right operand replaces the left one. *)
Definition joinpath (a b : Path) : Path :=
  if is_absolute b then b
  else MkPath (is_absolute a) (parts a ++ parts b).

Infix "//" := joinpath (at level 40, left associativity).

(** The Python values a template parameter or a field can hold. *)
Inductive Value :=
| VNone
| VBool (b : bool)
| VInt (z : Z)
| VStr (s : string).

#[global] Instance Value_eq_dec : EqDecision Value.
Proof. solve_decision. Defined.

(** The exception classes that occur.  [ValueError], [TypeError] and
    [LookupError] are unrelated subclasses of [Exception], none a subclass
    of another; [FileNotFoundError] is an [OSError] and carries the
    reference that was not found; [HookError] stands for whatever a
    user-written hook raises; [SystemError] is the answer to an address
    that holds no dictionary, which no Python program produces. *)
Inductive Exn :=
| ValueError (msg : string)
| TypeError (msg : string)
| LookupError (msg : string)
| FileNotFoundError (reference : Path)
| SystemError (msg : string)
| HookError (tag : string).

#[global] Instance Exn_eq_dec : EqDecision Exn.
Proof. solve_decision. Defined.

Inductive Result (A : Type) :=
| Ok (a : A)
| Raise (e : Exn).

Arguments Ok {A} a.
Arguments Raise {A} e.

(** ** The world: the configuration object, the dictionaries, the call log *)

(** A configuration instance: the [_template_] field of [BaseConfig] and
    the fields a dataclass subclass adds. *)
Record Cfg := MkCfg { _template_ : Path; fields : gmap string Value }.

#[global] Instance Cfg_eq_dec : EqDecision Cfg.
Proof. solve_decision. Defined.

(** A positional argument of [render]: [dict[str, Any] | list[str]]. *)
Inductive Arg :=
| ArgDict (d : gmap string Value)
| ArgList (l : list string).

(** Calls that leave [BaseConfig.render]. *)
Inductive Event :=
| EvUpdate
| EvMethod (name : string)
| EvResolve (reference : Path)
| EvRender (template_file : Path) (args : list Arg) (params : gmap string Value).

(** Dictionaries are heap objects, named by their address. *)
Abbreviation loc := nat.

(** The state of the program outside the configuration instance and the
    dictionaries of [render], which the callables that [render] calls can
    read and write: the global variables of their modules, and whatever
    else they consult (a counter, a random generator or a clock is a
    variable that its reader advances). *)
Abbreviation Env := (gmap string Value).

Record World := MkWorld {
  w_cfg : Cfg;
  w_env : gmap string Value;
  w_heap : gmap loc (gmap string Value);
  w_calls : list Event
}.

(** State and exceptions: a raised exception keeps the mutations made so
    far. *)
Definition M (A : Type) : Type := World -> Result A * World.

Definition ret {A} (a : A) : M A := fun w => (Ok a, w).

Definition bind {A B} (m : M A) (k : A -> M B) : M B :=
  fun w =>
    match m w with
    | (Ok a, w') => k a w'
    | (Raise e, w') => (Raise e, w')
    end.

Declare Scope py_scope.
Delimit Scope py_scope with py.
Notation "'do' x <- m ; k" := (bind m (fun x => k))
  (at level 10, x name, m at level 100, k at level 200) : py_scope.
Notation "m ;; k" := (bind m (fun _ => k))
  (at level 100, k at level 200, right associativity) : py_scope.
Open Scope py_scope.

Definition raise {A} (e : Exn) : M A := fun w => (Raise e, w).

Definition lift {A} (r : Result A) : M A := fun w => (r, w).

Definition log (ev : Event) : M unit :=
  fun w => (Ok tt, MkWorld (w_cfg w) (w_env w) (w_heap w) (w_calls w ++ [ev])).

(** A user-written callable that receives the configuration instance: it
    may read and mutate the instance and the global state, and returns or
    raises.  It is given no dictionary of [render]. *)
Definition Hook (A : Type) : Type :=
  Cfg -> gmap string Value -> Result A * Cfg * gmap string Value.

(** Calling a hook on [cfg]: the call is logged, then the hook runs on the
    configuration object and the global state. *)
Definition call {A} (ev : Event) (h : Hook A) : M A :=
  log ev ;;
  fun w =>
    let '(r, c, env) := h (w_cfg w) (w_env w) in
    (r, MkWorld c env (w_heap w) (w_calls w)).

(** The template engine behind [textconf.render.render]: it reads the
    instance, may read and write the global state (filters and functions
    of the environment are arbitrary callables), and returns the text or
    raises. *)
Definition Engine : Type :=
  Path -> Cfg -> list Arg -> gmap string Value -> gmap string Value ->
  Result string * gmap string Value.

(** Calling the engine. *)
Definition call_engine (engine : Engine) (file : Path) (cfg : Cfg)
    (args : list Arg) (params : gmap string Value) : M string :=
  log (EvRender file args params) ;;
  fun w =>
    let (r, env) := engine file cfg args params (w_env w) in
    (r, MkWorld (w_cfg w) env (w_heap w) (w_calls w)).

Definition get_cfg : M Cfg := fun w => (Ok (w_cfg w), w).

(** [d.copy()]: a new dictionary object with the same items. *)
Definition dict_copy (d : loc) : M loc :=
  fun w =>
    match w_heap w !! d with
    | Some items =>
        let l := fresh (dom (w_heap w)) in
        (Ok l, MkWorld (w_cfg w) (w_env w) (<[l := items]> (w_heap w))
                       (w_calls w))
    | None => (Raise (SystemError "dangling reference"), w)
    end.

(** [name in d]. *)
Definition dict_contains (d : loc) (name : string) : M bool :=
  fun w =>
    match w_heap w !! d with
    | Some items => (Ok (bool_decide (is_Some (items !! name))), w)
    | None => (Raise (SystemError "dangling reference"), w)
    end.

(** [d[name] = v]. *)
Definition dict_setitem (d : loc) (name : string) (v : Value) : M unit :=
  fun w =>
    match w_heap w !! d with
    | Some items =>
        (Ok tt, MkWorld (w_cfg w) (w_env w)
                        (<[d := <[name := v]> items]> (w_heap w)) (w_calls w))
    | None => (Raise (SystemError "dangling reference"), w)
    end.

(** Reading the items of [d], as [**d] does at a call. *)
Definition dict_items (d : loc) : M (gmap string Value) :=
  fun w =>
    match w_heap w !! d with
    | Some items => (Ok items, w)
    | None => (Raise (SystemError "dangling reference"), w)
    end.

(** [for x in xs: body(x)]. *)
Fixpoint for_each {A} (xs : list A) (body : A -> M unit) : M unit :=
  match xs with
  | [] => ret tt
  | x :: rest => body x ;; for_each rest body
  end.

(** ** [textconf.config] *)

Module BaseConfig.

(** What [render] uses of a concrete subclass of [BaseConfig]: its
    [update] hook (the default does nothing) and the directory of the
    file that defines the class, where the resolver looks. *)
Record ConfigClass := MkClass {
  update : Hook unit;
  module_dir : Path
}.

(** [BaseConfig.update]: the default hook. *)
Definition default_update : Hook unit := fun cfg env => (Ok tt, cfg, env).

Section Render.

(** The three functions [config.py] imports from [textconf.template]
    and [textconf.render].  The resolver only checks which files exist,
    in a file system that is fixed here. *)
Variable iter_template_methods : ConfigClass -> list (string * Hook Value).
Variable get_template_file : ConfigClass -> Path -> Result Path.
Variable render_template : Engine.

(** The body of the loop of [render]:
    [if name not in params: params[name] = obj(cfg)]. *)
Definition inject (params : loc) (m : string * Hook Value) : M unit :=
  let (name, obj) := m in
  do present <- dict_contains params name;
  if present then ret tt
  else
    do v <- call (EvMethod name) obj;
    dict_setitem params name v.

(** [BaseConfig.render(cls, cfg, *args, **kwargs)]; [kwargs] is the
    dictionary object holding the keyword arguments. *)
Definition render (cls : ConfigClass) (args : list Arg) (kwargs : loc)
  : M string :=
  call EvUpdate (update cls) ;;
  do params <- dict_copy kwargs;
  for_each (iter_template_methods cls) (inject params) ;;
  do cfg <- get_cfg;
  log (EvResolve (_template_ cfg)) ;;
  do template_file <- lift (get_template_file cls (_template_ cfg));
  do merged <- dict_items params;
  call_engine render_template template_file cfg args merged.

(** *** The loop, as a function of the dictionary and the instance *)

(** The outcome of the loop: how it ended, the dictionary, the
    instance and the global state it leaves, the names it invoked. *)
Record LoopOutcome := MkLoop {
  lo_result : Result unit;
  lo_params : gmap string Value;
  lo_cfg : Cfg;
  lo_env : gmap string Value;
  lo_names : list string
}.

(** What the loop over the discovered methods does to the parameter
    dictionary [p], to the instance [c] and to the global state [env],
    and the names of the methods it invokes, in order. *)
Fixpoint run_methods (ms : list (string * Hook Value))
    (p : gmap string Value) (c : Cfg) (env : gmap string Value)
  : LoopOutcome :=
  match ms with
  | [] => MkLoop (Ok tt) p c env []
  | (name, obj) :: rest =>
      if bool_decide (is_Some (p !! name)) then run_methods rest p c env
      else
        match obj c env with
        | (Ok v, c', env') =>
            let o := run_methods rest (<[name := v]> p) c' env' in
            MkLoop (lo_result o) (lo_params o) (lo_cfg o) (lo_env o)
                   (name :: lo_names o)
        | (Raise e, c', env') => MkLoop (Raise e) p c' env' [name]
        end
  end.

(** The names the loop invokes when no method raises: the discovered
    names that are not yet keys, each once, in discovery order. *)
Fixpoint to_call (keys : gset string) (names : list string) : list string :=
  match names with
  | [] => []
  | n :: rest =>
      if decide (n ∈ keys) then to_call keys rest
      else n :: to_call ({[n]} ∪ keys) rest
  end.

(** The template methods invoked according to a call log. *)
Definition invoked (calls : list Event) : list string :=
  omap (fun ev => match ev with EvMethod n => Some n | _ => None end) calls.

(** [render] written out on a world whose dictionary [kwargs] holds the
    items [kd]: the result, and the world it leaves. *)
Definition render_outcome (cls : ConfigClass) (args : list Arg)
    (kd : gmap string Value) (w : World) : Result string * World :=
  match update cls (w_cfg w) (w_env w) with
  | (Raise e, c1, e1) =>
      (Raise e, MkWorld c1 e1 (w_heap w) (w_calls w ++ [EvUpdate]))
  | (Ok _, c1, e1) =>
      let o := run_methods (iter_template_methods cls) kd c1 e1 in
      let p := lo_params o in
      let c2 := lo_cfg o in
      let h := <[fresh (dom (w_heap w)) := p]> (w_heap w) in
      let cs := w_calls w ++ EvUpdate :: (EvMethod <$> lo_names o) in
      match lo_result o with
      | Raise e => (Raise e, MkWorld c2 (lo_env o) h cs)
      | Ok _ =>
          match get_template_file cls (_template_ c2) with
          | Raise e =>
              (Raise e,
               MkWorld c2 (lo_env o) h (cs ++ [EvResolve (_template_ c2)]))
          | Ok file =>
              ((render_template file c2 args p (lo_env o)).1,
               MkWorld c2 (render_template file c2 args p (lo_env o)).2 h
                 (cs ++ [EvResolve (_template_ c2); EvRender file args p]))
          end
      end
  end.

End Render.

End BaseConfig.

(** ** [textconf.template]: the template resolver *)

Module Template.

(** The file system as the resolver sees it: the current working
    directory and the absolute paths that exist, each by its parts. *)
Record FileSystem := MkFS { cwd : list string; files : gset (list string) }.

(** The absolute path a path denotes in the current working directory. *)
Definition absolute (fs : FileSystem) (p : Path) : list string :=
  if is_absolute p then parts p else cwd fs ++ parts p.

(** [p.exists()]. *)
Definition path_exists (fs : FileSystem) (p : Path) : bool :=
  bool_decide (absolute fs p ∈ files fs).

(** The proper prefixes of a path whose parts are given in reverse, the
    longest first. *)
Fixpoint prefixes_rev (rparts : list string) : list (list string) :=
  match rparts with
  | [] => []
  | _ :: rest => rev rest :: prefixes_rev rest
  end.

(** [p.parents]: parent, grandparent, ... up to the root. *)
Definition parents (p : Path) : list Path :=
  MkPath (is_absolute p) <$> prefixes_rev (rev (parts p)).

(** The join rule of the search: [base/directory/reference] if a
    directory is given, else [base/reference]. *)
Definition join_rule (base : Path) (directory : option Path)
    (reference : Path) : Path :=
  match directory with
  | Some d => base // d // reference
  | None => base // reference
  end.

(** The first candidate that exists, and the candidates whose existence
    was checked on the way, in order. *)
Fixpoint first_existing (fs : FileSystem) (candidates : list Path)
  : option Path * list Path :=
  match candidates with
  | [] => (None, [])
  | c :: rest =>
      if path_exists fs c then (Some c, [c])
      else
        let (found, probed) := first_existing fs rest in
        (found, c :: probed)
  end.

(** Step 1 of the search: the reference as it is given, then, if a
    directory is given, the reference under that directory of the
    current working directory. *)
Definition cwd_candidates (fs : FileSystem) (directory : option Path)
    (reference : Path) : list Path :=
  reference ::
  match directory with
  | Some d => [MkPath true (cwd fs) // d // reference]
  | None => []
  end.

(** Steps 2 and 3: the directory [D] of the class's source file, then
    its ancestors, each under the join rule. *)
Definition class_candidates (D : Path) (directory : option Path)
    (reference : Path) : list Path :=
  (fun base => join_rule base directory reference) <$> (D :: parents D).

(** The whole search order. *)
Definition candidates (fs : FileSystem) (D : Path) (directory : option Path)
    (reference : Path) : list Path :=
  cwd_candidates fs directory reference
  ++ class_candidates D directory reference.

(** Modelled from the spec: [textconf/template.py], which defines
    [get_template_file], is not among the sources; only its tests are.
    The search order is the one of the specification of the Template
    Resolver: the reference as given (absolute, or relative to the
    current working directory), optionally joined with the directory;
    then relative to the class's source directory; then its ancestors up
    to the root, under the same join rule; else a file-not-found error
    naming the reference.  An existing reference is returned as it is
    ([resolve(cls, p) == p]); a candidate built by a join is returned as
    that joined path, as [test_existing_file_in_dir] and
    [test_get_from_class_dir] expect.  The second component lists the
    locations consulted. *)
Definition get_template_file (fs : FileSystem) (D : Path)
    (reference : Path) (directory : option Path)
  : Result Path * list Path :=
  match first_existing fs (candidates fs D directory reference) with
  | (Some file, probed) => (Ok file, probed)
  | (None, probed) => (Raise (FileNotFoundError reference), probed)
  end.

End Template.

(** ** [textconf.enum] *)

Module RenderableEnum.

(** A class bound in a module: whether [issubclass(obj, Renderable)]
    holds, and its [render] classmethod. *)
Record PyClass := MkPyClass {
  is_renderable : bool;
  cls_render : M Value
}.

(** What a module can bind under a name: a class, or anything else. *)
Inductive PyObj :=
| ObjClass (c : PyClass)
| ObjValue (v : Value).

Definition name_le (a b : string * PyObj) : Prop := String.le a.1 b.1.

#[global] Instance name_le_dec : RelDecision name_le.
Proof. intros a b. unfold name_le. apply _. Defined.

(** [inspect.getmembers(module)]: the (name, value) pairs, sorted by
    name. *)
Definition getmembers (module : gmap string PyObj) : list (string * PyObj) :=
  merge_sort name_le (map_to_list module).

(** [f"No renderable class found for {self.name}"]. *)
Definition no_class_msg (name : string) : string :=
  "No renderable class found for " +:+ name.

(** The loop of [RenderableEnum.render] over the members;
    [issubclass] is only evaluated when the names agree, and raises
    [TypeError] when its first argument is not a class. *)
Fixpoint render_members (self_name : string)
    (members : list (string * PyObj)) : M Value :=
  match members with
  | [] => raise (ValueError (no_class_msg self_name))
  | (name, obj) :: rest =>
      if decide (name = self_name) then
        match obj with
        | ObjClass c =>
            if is_renderable c then cls_render c
            else render_members self_name rest
        | ObjValue _ => raise (TypeError "issubclass() arg 1 must be a class")
        end
      else render_members self_name rest
  end.

(** [RenderableEnum.render(self, cfg)] for the member named [self_name],
    whose module is [module] when the call is made. *)
Definition render (self_name : string) (module : gmap string PyObj) : M Value :=
  render_members self_name (getmembers module).

(** What the loop amounts to on the one member that carries the name,
    the names of a module being pairwise distinct. *)
Definition dispatch (name : string) (obj : PyObj) : M Value :=
  match obj with
  | ObjClass c =>
      if is_renderable c then cls_render c
      else raise (ValueError (no_class_msg name))
  | ObjValue _ => raise (TypeError "issubclass() arg 1 must be a class")
  end.

End RenderableEnum.

(** ** Calling [render] on a configuration class *)

Module Call.

Import BaseConfig.

(** A call packs the keyword arguments it is given into a new
    dictionary. *)
Definition dict_new (items : gmap string Value) : M loc :=
  fun w =>
    let l := fresh (dom (w_heap w)) in
    (Ok l, MkWorld (w_cfg w) (w_env w) (<[l := items]> (w_heap w))
                   (w_calls w)).

Section Call.

Variable iter_template_methods : ConfigClass -> list (string * Hook Value).
Variable get_template_file : ConfigClass -> Path -> Result Path.
Variable render_template : Engine.

(** The call [cls.render(cfg, *args, **items)]. *)
Definition call_render (cls : ConfigClass) (args : list Arg)
    (items : gmap string Value) : M string :=
  do kwargs <- dict_new items;
  render iter_template_methods get_template_file render_template
    cls args kwargs.

(** A subclass of [BaseConfig] as [RenderableEnum.render] finds it in a
    module: a subclass of [Renderable], on which [obj.render(cfg)] is the
    call of [BaseConfig.render] with no further argument. *)
Definition as_renderable (cls : ConfigClass) : RenderableEnum.PyClass :=
  RenderableEnum.MkPyClass true
    (do s <- call_render cls [] ∅; ret (VStr s)).

End Call.

End Call.

(** ** Concrete configurations, modules and file systems *)

Module Examples.

Import BaseConfig.

(** The file names of [tests/test_template.py]. *)
Definition template_jinja : Path := MkPath false ["template.jinja"].
Definition dir : Path := MkPath false ["dir"].
Definition tests_dir : Path := MkPath true ["repo"; "tests"].

(** [test_existing_file_in_dir]: the current working directory is [/tmp]
    and the only file is [/tmp/dir/template.jinja]. *)
Definition fs_in_dir : Template.FileSystem :=
  Template.MkFS ["tmp"] {[ ["tmp"; "dir"; "template.jinja"] ]}.

(** [test_existing_file]: [/tmp/template.jinja] exists. *)
Definition fs_existing : Template.FileSystem :=
  Template.MkFS ["tmp"] {[ ["tmp"; "template.jinja"] ]}.

(** [test_get_from_class]: the file is next to the class's source. *)
Definition fs_class : Template.FileSystem :=
  Template.MkFS ["tmp"] {[ ["repo"; "tests"; "template.jinja"] ]}.

(** [test_get_from_class_parent_dir]: the file is in a directory [dir] of
    the parent of the class's source directory. *)
Definition fs_parent : Template.FileSystem :=
  Template.MkFS ["tmp"] {[ ["repo"; "dir"; "template.jinja"] ]}.

(** [test_current_dir_not_found]: no such file anywhere. *)
Definition fs_none : Template.FileSystem := Template.MkFS ["tmp"] ∅.

(** A configuration with a string field [s], whose template is
    [/tmp/template.jinja]. *)
Definition cfg0 : Cfg :=
  MkCfg (MkPath true ["tmp"; "template.jinja"]) {[ "s" := VStr "a" ]}.

(** The global state: a module-level variable [g]. *)
Definition env0 : gmap string Value := {[ "g" := VStr "1" ]}.

(** The keyword arguments [x=5], in the dictionary at address 0. *)
Definition kwargs0 : gmap string Value := {[ "x" := VInt 5 ]}.
Definition w0 : World := MkWorld cfg0 env0 {[ 0 := kwargs0 ]} [].

(** A class that keeps the default [update]. *)
Definition plain_class : ConfigClass := MkClass default_update tests_dir.


(** A class whose [update] raises. *)
Definition failing_class : ConfigClass :=
  MkClass (fun cfg env => (Raise (HookError "update"), cfg, env)) tests_dir.


(** Two discovered template methods, [x] and [y]. *)
Definition discovered (cls : ConfigClass) : list (string * Hook Value) :=
  [("x", fun cfg env => (Ok (VInt 1), cfg, env));
   ("y", fun cfg env => (Ok (VInt 2), cfg, env))].


(** A discovered template method [s] that counts its calls in the global
    [g]: [global g; r = g; g += "!"; return r]. *)
Definition count_g : Hook Value :=
  fun cfg env =>
    match env !! "g" with
    | Some (VStr t) => (Ok (VStr t), cfg, <["g" := VStr (t +:+ "!")]> env)
    | _ => (Raise (TypeError "unsupported operand"), cfg, env)
    end.
Definition discovered_counting (cls : ConfigClass)
  : list (string * Hook Value) := [("s", count_g)].

(** The resolver on the file system of [test_existing_file]. *)
Definition resolver (cls : ConfigClass) (reference : Path) : Result Path :=
  (Template.get_template_file fs_existing (module_dir cls) reference None).1.

(** What the engine does with a template whose text is [{{s}}]: the
    string under [s], looked up in the parameters, then in the fields of
    the configuration. *)
Definition engine : Engine :=
  fun file cfg args params env =>
    (match params !! "s" with
     | Some (VStr t) => Ok t
     | Some _ => Ok ""
     | None =>
         match fields cfg !! "s" with
         | Some (VStr t) => Ok t
         | _ => Ok ""
         end
     end, env).

Definition render0 : ConfigClass -> list Arg -> loc -> M string :=
  render discovered resolver engine.

(** A module that binds a renderable class under [Title], and a module
    that binds an integer under that name. *)
Definition Title : RenderableEnum.PyClass :=
  RenderableEnum.MkPyClass true (ret (VStr "<h1>")).
Definition module_with_class : gmap string RenderableEnum.PyObj :=
  {[ "Title" := RenderableEnum.ObjClass Title;
     "VERSION" := RenderableEnum.ObjValue (VInt 3) ]}.
Definition module_with_value : gmap string RenderableEnum.PyObj :=
  {[ "Title" := RenderableEnum.ObjValue (VInt 3) ]}.

End Examples.

(** ** Further concrete inputs *)

Module MoreExamples.

Import BaseConfig Examples.

(** A resolver on the file system of [test_existing_file_in_dir], where
    the template [/tmp/template.jinja] of [cfg0] is missing. *)
Definition no_resolver (cls : ConfigClass) (reference : Path) : Result Path :=
  (Template.get_template_file fs_in_dir (module_dir cls) reference None).1.

(** The keyword arguments [x=5, y=7], which name both discovered
    methods. *)
Definition kwargs_xy : gmap string Value := {[ "x" := VInt 5; "y" := VInt 7 ]}.
Definition w_xy : World := MkWorld cfg0 env0 {[ 0 := kwargs_xy ]} [].

(** A module that binds the configuration class [plain_class] under
    [Title], next to a version number. *)
Definition module_with_config : gmap string RenderableEnum.PyObj :=
  {[ "Title" := RenderableEnum.ObjClass
                  (Call.as_renderable discovered resolver engine plain_class);
     "VERSION" := RenderableEnum.ObjValue (VInt 3) ]}.

End MoreExamples.

(** * Properties *)

(** ** The render pipeline of [BaseConfig] *)

Section RenderFacts.

Import BaseConfig.

Variable iter_template_methods : ConfigClass -> list (string * Hook Value).
Variable get_template_file : ConfigClass -> Path -> Result Path.
Variable render_template : Engine.

Local Abbreviation render :=
  (BaseConfig.render iter_template_methods get_template_file render_template).

(** One iteration of the loop on the dictionary at [l]. *)
Lemma inject_step l name obj p w :
  w_heap w !! l = Some p ->
  inject l (name, obj) w =
  if bool_decide (is_Some (p !! name)) then (Ok tt, w)
  else
    match obj (w_cfg w) (w_env w) with
    | (Ok v, c', env') =>
        (Ok tt, MkWorld c' env' (<[l := <[name := v]> p]> (w_heap w))
                        (w_calls w ++ [EvMethod name]))
    | (Raise e, c', env') =>
        (Raise e, MkWorld c' env' (w_heap w) (w_calls w ++ [EvMethod name]))
    end.
Proof.
  intros Hl. unfold inject, bind, dict_contains, call, bind, log, dict_setitem.
  rewrite Hl. destruct (bool_decide _); [done|]. simpl.
  destruct (obj (w_cfg w) (w_env w)) as [[[v|e] c'] env']; simpl; [|done].
  by rewrite Hl.
Qed.

Lemma for_each_cons {A} (x : A) rest body w :
  for_each (x :: rest) body w =
  match body x w with
  | (Ok _, w') => for_each rest body w'
  | (Raise e, w') => (Raise e, w')
  end.
Proof. reflexivity. Qed.

(** The loop of [render] on the dictionary at [l] is [run_methods] on its
    items. *)
Lemma for_each_inject ms : forall l p w,
  w_heap w !! l = Some p ->
  for_each ms (inject l) w =
  let o := run_methods ms p (w_cfg w) (w_env w) in
  (lo_result o,
   MkWorld (lo_cfg o) (lo_env o) (<[l := lo_params o]> (w_heap w))
           (w_calls w ++ (EvMethod <$> lo_names o))).
Proof.
  induction ms as [|[name obj] rest IH]; intros l p [c env h cs] Hl.
  - simpl in *. unfold ret. by rewrite insert_id, app_nil_r.
  - rewrite for_each_cons, (inject_step _ _ _ p) by done. simpl in *.
    destruct (bool_decide (is_Some (p !! name))).
    + by rewrite (IH l p (MkWorld c env h cs) Hl).
    + destruct (obj c env) as [[[v|e] c'] env'] eqn:Hobj.
      * rewrite (IH l (<[name := v]> p)); simpl.
        2: { by rewrite lookup_insert_eq. }
        by rewrite insert_insert_eq, <- app_assoc.
      * simpl. by rewrite insert_id.
Qed.

Lemma bind_unfold {A B} (m : M A) (k : A -> M B) w :
  bind m k w =
  match m w with
  | (Ok a, w') => k a w'
  | (Raise e, w') => (Raise e, w')
  end.
Proof. reflexivity. Qed.

Lemma render_unfold cls args kwargs kd w :
  w_heap w !! kwargs = Some kd ->
  render cls args kwargs w =
  render_outcome iter_template_methods get_template_file render_template
    cls args kd w.
Proof.
  intros Hkw. destruct w as [c env h cs]. simpl in Hkw.
  unfold BaseConfig.render, render_outcome. simpl.
  rewrite bind_unfold. unfold call at 1. rewrite bind_unfold. simpl.
  destruct (update cls c env) as [[[[]|e] c1] e1]; [|done].
  rewrite bind_unfold. unfold dict_copy at 1. simpl. rewrite Hkw.
  rewrite bind_unfold.
  rewrite (for_each_inject _ _ kd) by (simpl; by rewrite lookup_insert_eq).
  simpl.
  destruct (run_methods (iter_template_methods cls) kd c1 e1)
    as [r p c2 e2 names]. simpl.
  rewrite insert_insert_eq, <- app_assoc. simpl.
  destruct r as [[]|e]; [|done].
  rewrite bind_unfold. simpl. rewrite bind_unfold. simpl.
  rewrite bind_unfold. unfold lift at 1.
  destruct (get_template_file cls (_template_ c2)) as [file|e]; simpl.
  - rewrite bind_unfold. unfold dict_items at 1. simpl.
    rewrite lookup_insert_eq. unfold call_engine. rewrite bind_unfold. simpl.
    destruct (render_template file c2 args p e2) as [r3 e3]. simpl.
    by rewrite <- !app_assoc.
  - by rewrite <- !app_assoc.
Qed.

(** *** What the loop invokes and what it leaves in the dictionary *)

Lemma to_call_spec names : forall keys n,
  n ∈ to_call keys names -> (n ∉ keys) /\ n ∈ names.
Proof.
  induction names as [|m rest IH]; intros keys n; simpl.
  - by intros ?%elem_of_nil.
  - destruct (decide (m ∈ keys)) as [Hm|Hm].
    + intros Hn. apply IH in Hn as [? ?]. split; [done|].
      apply elem_of_cons. by right.
    + intros [->|Hn]%elem_of_cons.
      * split; [done|]. apply elem_of_cons. by left.
      * apply IH in Hn as [Hn ?]. split.
        -- intros ?. apply Hn, elem_of_union. by right.
        -- apply elem_of_cons. by right.
Qed.

Lemma to_call_sublist names : forall keys, to_call keys names `sublist_of` names.
Proof.
  induction names as [|m rest IH]; intros keys; simpl; [done|].
  destruct (decide (m ∈ keys)).
  - by apply sublist_cons.
  - by apply sublist_skip.
Qed.

Lemma to_call_filter_aux names : forall keys extra,
  NoDup names -> (forall n, n ∈ names -> n ∉ extra) ->
  to_call (extra ∪ keys) names = filter (fun n => n ∉ keys) names.
Proof.
  induction names as [|m rest IH]; intros keys extra Hnd Hex; simpl; [done|].
  apply NoDup_cons in Hnd as [Hm Hnd].
  assert (m ∉ extra) as Hmx by (apply Hex, elem_of_cons; by left).
  destruct (decide (m ∈ extra ∪ keys)) as [Hk|Hk].
  - rewrite filter_cons_False.
    2: { intros Hn. apply Hn. by apply elem_of_union in Hk as [?|?]. }
    apply IH; [done|]. intros n Hn. apply Hex, elem_of_cons. by right.
  - rewrite filter_cons_True.
    2: { intros ?. apply Hk, elem_of_union. by right. }
    f_equal.
    rewrite (assoc_L (∪)). apply IH; [done|].
    intros n Hn Hu. apply elem_of_union in Hu as [->%elem_of_singleton|Hu].
    + done.
    + eapply Hex; [|done]. apply elem_of_cons. by right.
Qed.

(** When the discovered names are pairwise distinct, as the names of the
    members of a class are, the names to call are simply the discovered
    names that are not keys. *)
Lemma to_call_filter names keys :
  NoDup names -> to_call keys names = filter (fun n => n ∉ keys) names.
Proof.
  intros Hnd. rewrite <- (to_call_filter_aux names keys ∅ Hnd).
  - by rewrite (left_id_L ∅ (∪)).
  - intros n _. apply not_elem_of_empty.
Qed.

Lemma run_methods_keeps ms : forall p c env k v,
  p !! k = Some v -> lo_params (run_methods ms p c env) !! k = Some v.
Proof.
  induction ms as [|[name obj] rest IH]; intros p c env k v Hk; simpl.
  - done.
  - case_bool_decide as Hin.
    + by apply IH.
    + destruct (obj c env) as [[[u|e] c1] e1]; simpl; [|done].
      apply IH. rewrite lookup_insert_ne; [done|].
      intros ->. apply Hin. by exists v.
Qed.

Lemma run_methods_names ms : forall p c env,
  lo_names (run_methods ms p c env) `prefix_of` to_call (dom p) ms.*1 /\
  (lo_result (run_methods ms p c env) = Ok tt ->
   lo_names (run_methods ms p c env) = to_call (dom p) ms.*1).
Proof.
  induction ms as [|[name obj] rest IH]; intros p c env; simpl.
  - done.
  - case_bool_decide as Hin.
    + rewrite decide_True by (by apply elem_of_dom). apply IH.
    + rewrite decide_False by (by rewrite elem_of_dom).
      destruct (obj c env) as [[[v|e] c1] e1]; simpl.
      * destruct (IH (<[name := v]> p) c1 e1) as [Hpre Heq].
        rewrite dom_insert_L in Hpre, Heq.
        split; [by apply prefix_cons|]. intros ?. f_equal. by apply Heq.
      * split; [|done]. apply prefix_cons, prefix_nil.
Qed.

Lemma invoked_methods names : invoked (EvMethod <$> names) = names.
Proof.
  induction names as [|n rest IH]; [done|].
  change (n :: invoked (EvMethod <$> rest) = n :: rest). by rewrite IH.
Qed.

Lemma invoked_app cs1 cs2 : invoked (cs1 ++ cs2) = invoked cs1 ++ invoked cs2.
Proof. apply omap_app. Qed.

Lemma elem_of_invoked name calls : EvMethod name ∈ calls <-> name ∈ invoked calls.
Proof.
  unfold invoked. rewrite list_elem_of_omap. split.
  - intros Hin. by exists (EvMethod name).
  - intros [[| n | |] [Hin Heq]]; simplify_eq. done.
Qed.

(** *** Explicit keyword arguments win *)

(** C1.  In [BaseConfig.render], whatever the class, the instance and the
    explicit keyword arguments [kd]: no discovered template method whose
    name is a key of [kd] is invoked; the parameter set handed to the
    template engine maps every key of [kd] to its explicit value; the
    methods that are invoked are, in discovery order, the discovered names
    absent from [kd] (a prefix of them if a call raises, all of them if
    [render] returns). *)
Theorem render_explicit_kwargs_win cls args kwargs kd w :
  w_heap w !! kwargs = Some kd ->
  exists calls,
    w_calls (render cls args kwargs w).2 = w_calls w ++ calls /\
    (forall k, is_Some (kd !! k) -> EvMethod k ∉ calls) /\
    (forall file a p, EvRender file a p ∈ calls ->
       forall k v, kd !! k = Some v -> p !! k = Some v) /\
    invoked calls `prefix_of`
      to_call (dom kd) (iter_template_methods cls).*1 /\
    to_call (dom kd) (iter_template_methods cls).*1
      `sublist_of` (iter_template_methods cls).*1 /\
    (forall s, (render cls args kwargs w).1 = Ok s ->
       invoked calls = to_call (dom kd) (iter_template_methods cls).*1 /\
       exists file p, EvRender file args p ∈ calls).
Proof.
  intros Hkw. rewrite (render_unfold _ _ _ kd) by done.
  unfold render_outcome.
  assert (forall calls,
    invoked calls `prefix_of` to_call (dom kd) (iter_template_methods cls).*1 ->
    forall k, is_Some (kd !! k) -> EvMethod k ∉ calls) as Hnever.
  { intros calls Hpre k Hk Hin. apply elem_of_invoked in Hin.
    destruct Hpre as [rest Hrest].
    assert (k ∈ to_call (dom kd) (iter_template_methods cls).*1) as Hc.
    { rewrite Hrest. apply elem_of_app. by left. }
    apply to_call_spec in Hc as [Hc _]. by apply Hc, elem_of_dom. }
  destruct (update cls (w_cfg w) (w_env w)) as [[[[]|e] c1] e1].
  2: { exists [EvUpdate]. split_and!; try done.
       - apply Hnever, prefix_nil.
       - intros file a p Hin. apply list_elem_of_singleton in Hin. done.
       - apply prefix_nil.
       - apply to_call_sublist. }
  pose proof (run_methods_keeps (iter_template_methods cls) kd c1 e1) as Hkeep.
  pose proof (run_methods_names (iter_template_methods cls) kd c1 e1)
    as [Hpre Hall].
  destruct (run_methods (iter_template_methods cls) kd c1 e1)
    as [r p c2 e2 names]. simpl in *.
  assert (forall tail, invoked tail = [] ->
            invoked (EvUpdate :: (EvMethod <$> names) ++ tail) = names) as Hinv.
  { intros tail Ht. change (invoked ((EvMethod <$> names) ++ tail) = names).
    by rewrite invoked_app, invoked_methods, Ht, app_nil_r. }
  destruct r as [[]|e].
  2: { pose proof (Hinv [] eq_refl) as Hinv0. rewrite app_nil_r in Hinv0.
       exists (EvUpdate :: (EvMethod <$> names)).
       split_and!; try done.
       - apply Hnever. by rewrite Hinv0.
       - intros file a q Hin. apply elem_of_cons in Hin as [?|Hin]; [done|].
         apply list_elem_of_fmap in Hin as [? [? _]]. done.
       - by rewrite Hinv0.
       - apply to_call_sublist. }
  destruct (get_template_file cls (_template_ c2)) as [file|e].
  - exists (EvUpdate :: (EvMethod <$> names)
            ++ [EvResolve (_template_ c2); EvRender file args p]).
    split; [simpl; by rewrite <- app_assoc|].
    split_and!.
    + apply Hnever. by rewrite Hinv.
    + intros f a q Hin. apply elem_of_cons in Hin as [?|Hin]; [done|].
      apply elem_of_app in Hin as [Hin|Hin].
      { apply list_elem_of_fmap in Hin as [? [? _]]. done. }
      apply elem_of_cons in Hin as [?|Hin]; [done|].
      apply list_elem_of_singleton in Hin. simplify_eq. apply Hkeep.
    + by rewrite Hinv.
    + apply to_call_sublist.
    + intros s _. split; [rewrite Hinv by done; by apply Hall|].
      exists file, p. apply elem_of_cons. right. apply elem_of_app. right.
      apply elem_of_cons. right. apply list_elem_of_singleton. done.
  - exists (EvUpdate :: (EvMethod <$> names) ++ [EvResolve (_template_ c2)]).
    split; [simpl; by rewrite <- app_assoc|].
    split_and!; try done.
    + apply Hnever. by rewrite Hinv.
    + intros f a q Hin. apply elem_of_cons in Hin as [?|Hin]; [done|].
      apply elem_of_app in Hin as [Hin|Hin].
      { apply list_elem_of_fmap in Hin as [? [? _]]. done. }
      apply list_elem_of_singleton in Hin. done.
    + by rewrite Hinv.
    + apply to_call_sublist.
Qed.

(** *** The update hook comes first *)

(** C6.  [BaseConfig.render] calls the [update] hook first: the calls it
    makes start with the call of [update], which is made once, before any
    template method, the resolver and the engine.  If [update] raises,
    [render] raises the same exception and does nothing else: no template
    method is invoked, no dictionary is created, no template file is
    resolved, nothing is rendered; the world is the one [update] left. *)
Theorem render_update_first cls args kwargs w :
  (forall kd, w_heap w !! kwargs = Some kd ->
     exists rest,
       w_calls (render cls args kwargs w).2 = w_calls w ++ EvUpdate :: rest /\
       EvUpdate ∉ rest) /\
  (forall e c1 e1, update cls (w_cfg w) (w_env w) = (Raise e, c1, e1) ->
     render cls args kwargs w =
     (Raise e, MkWorld c1 e1 (w_heap w) (w_calls w ++ [EvUpdate]))).
Proof.
  split.
  - intros kd Hkw. rewrite (render_unfold _ _ _ kd) by done.
    unfold render_outcome.
    destruct (update cls (w_cfg w) (w_env w)) as [[[[]|e] c1] e1].
    2: { exists []. split; [done|]. apply not_elem_of_nil. }
    destruct (run_methods (iter_template_methods cls) kd c1 e1)
      as [r p c2 e2 names]. simpl.
    assert (EvUpdate ∉ EvMethod <$> names) as Hm.
    { intros Hin. apply list_elem_of_fmap in Hin as [? [? _]]. done. }
    destruct r as [[]|e]; [|by exists (EvMethod <$> names)].
    destruct (get_template_file cls (_template_ c2)) as [file|e].
    + exists ((EvMethod <$> names)
              ++ [EvResolve (_template_ c2); EvRender file args p]).
      split; [simpl; by rewrite <- app_assoc|].
      intros Hin. apply elem_of_app in Hin as [Hin|Hin]; [done|].
      apply elem_of_cons in Hin as [?|Hin]; [done|].
      by apply list_elem_of_singleton in Hin.
    + exists ((EvMethod <$> names) ++ [EvResolve (_template_ c2)]).
      split; [simpl; by rewrite <- app_assoc|].
      intros Hin. apply elem_of_app in Hin as [Hin|Hin]; [done|].
      by apply list_elem_of_singleton in Hin.
  - intros e c1 e1 Hup. unfold BaseConfig.render.
    rewrite bind_unfold. unfold call at 1. rewrite bind_unfold. simpl.
    by rewrite Hup.
Qed.

(** *** The caller's dictionary *)

(** What [render] leaves of the dictionaries and of the instance. *)
Lemma render_outcome_heap cls args kd w l :
  l <> fresh (dom (w_heap w)) ->
  w_heap (render_outcome iter_template_methods get_template_file
            render_template cls args kd w).2 !! l = w_heap w !! l.
Proof.
  intros Hl. unfold render_outcome.
  assert (forall p, <[fresh (dom (w_heap w)) := p]> (w_heap w) !! l
                    = w_heap w !! l) as Hfresh.
  { intros p. by apply lookup_insert_ne. }
  destruct (update cls (w_cfg w) (w_env w)) as [[[[]|e] c1] e1]; [|done].
  destruct (run_methods (iter_template_methods cls) kd c1 e1)
    as [r p c2 e2 names]. simpl.
  destruct r as [[]|e]; [|apply Hfresh].
  destruct (get_template_file cls (_template_ c2)); apply Hfresh.
Qed.

Lemma allocated_not_fresh (h : gmap loc (gmap string Value)) l :
  l ∈ dom h -> l <> fresh (dom h).
Proof. intros Hl ->. by apply is_fresh in Hl. Qed.

(** C9.  The dictionary of keyword arguments the caller passed is
    unchanged by [render]: the results of the discovered template methods
    go into a copy, which is a new dictionary object, at an address that
    was not in use; the dictionary at every other address, so every
    dictionary that existed before the call, holds the same items after
    it. *)
Theorem render_kwargs_unchanged cls args kwargs kd w :
  w_heap w !! kwargs = Some kd ->
  w_heap (render cls args kwargs w).2 !! kwargs = Some kd /\
  (fresh (dom (w_heap w)) ∉ dom (w_heap w)) /\
  (forall l, l <> fresh (dom (w_heap w)) ->
     w_heap (render cls args kwargs w).2 !! l = w_heap w !! l).
Proof.
  intros Hkw. rewrite (render_unfold _ _ _ kd) by done. split_and!.
  - rewrite render_outcome_heap; [done|].
    apply allocated_not_fresh, elem_of_dom. by exists kd.
  - apply is_fresh.
  - intros l Hl. by apply render_outcome_heap.
Qed.

(** *** Further facts about the loop *)

(** An exception of the loop is the exception of a discovered method. *)
Lemma run_methods_raise ms : forall p c env e,
  lo_result (run_methods ms p c env) = Raise e ->
  exists name obj c0 e0, (name, obj) ∈ ms /\ (obj c0 e0).1.1 = Raise e.
Proof.
  induction ms as [|[name obj] rest IH]; intros p c env e; simpl.
  - intros [=].
  - assert (forall q c1 e1,
      lo_result (run_methods rest q c1 e1) = Raise e ->
      exists n o c0 e0, (n, o) ∈ (name, obj) :: rest /\ (o c0 e0).1.1 = Raise e)
      as Hrest.
    { intros q c1 e1 Hrun.
      destruct (IH _ _ _ _ Hrun) as (n & o & c0 & e0 & Hin & Hr).
      exists n, o, c0, e0. split; [|done]. apply elem_of_cons. by right. }
    case_bool_decide; [by apply Hrest|].
    destruct (obj c env) as [[[v|e'] c1] e1] eqn:Hobj; simpl.
    + by apply Hrest.
    + intros [= ->]. exists name, obj, c, env.
      split; [apply elem_of_cons; by left|]. by rewrite Hobj.
Qed.

(** When the loop returns, the keys of the dictionary are the keys it
    had and the discovered names. *)
Lemma run_methods_dom ms : forall p c env,
  lo_result (run_methods ms p c env) = Ok tt ->
  dom (lo_params (run_methods ms p c env)) = dom p ∪ list_to_set ms.*1.
Proof.
  induction ms as [|[name obj] rest IH]; intros p c env; simpl.
  - intros _. by rewrite (right_id_L ∅ (∪)).
  - case_bool_decide as Hin.
    + intros Hrun. rewrite (IH _ _ _ Hrun).
      apply elem_of_dom in Hin. apply set_eq. intros x.
      change (list_fmap _ _ fst rest) with (rest.*1).
      rewrite !elem_of_union, elem_of_singleton. intuition congruence.
    + destruct (obj c env) as [[[v|e'] c1] e1]; simpl; [|intros [=]].
      intros Hrun. rewrite (IH _ _ _ Hrun), dom_insert_L.
      apply set_eq. intros x.
      change (list_fmap _ _ fst rest) with (rest.*1).
      rewrite !elem_of_union, elem_of_singleton. intuition.
Qed.

(** When every discovered name is a key already, the loop does nothing. *)
Lemma run_methods_all_keys ms p c env :
  (forall n, n ∈ ms.*1 -> is_Some (p !! n)) ->
  run_methods ms p c env = MkLoop (Ok tt) p c env [].
Proof.
  induction ms as [|[name obj] rest IH]; intros Hall; simpl; [done|].
  rewrite bool_decide_eq_true_2.
  - apply IH. intros n Hn. apply Hall. rewrite fmap_cons.
    apply elem_of_cons. by right.
  - apply Hall. rewrite fmap_cons. apply elem_of_cons. by left.
Qed.




(** When no discovered method raises, the loop returns. *)
Lemma run_methods_ok ms : forall p c env,
  (forall name obj c0 e0,
     (name, obj) ∈ ms -> exists v c1 e1, obj c0 e0 = (Ok v, c1, e1)) ->
  lo_result (run_methods ms p c env) = Ok tt.
Proof.
  induction ms as [|[n o] rest IH]; intros p c env Hok; simpl; [done|].
  assert (forall name obj c0 e0,
            (name, obj) ∈ rest -> exists v c1 e1, obj c0 e0 = (Ok v, c1, e1))
    as Hok'.
  { intros name obj c0 e0 Hin. apply (Hok name). apply elem_of_cons. by right. }
  case_bool_decide; [by apply IH|].
  destruct (Hok n o c env) as (v & c1 & e1 & ->); [apply elem_of_cons; by left|].
  simpl. by apply IH.
Qed.

(** *** Rendering twice *)


(** *** The calls of [render], beyond the claims *)

(** The calls one [render] adds to the log, and what an engine call in
    them says about the hooks. *)
Lemma render_log cls args kwargs kd w :
  w_heap w !! kwargs = Some kd ->
  exists calls,
    w_calls (render cls args kwargs w).2 = w_calls w ++ calls /\
    (invoked calls = [] \/
     invoked calls
     = lo_names (run_methods (iter_template_methods cls) kd
                   (update cls (w_cfg w) (w_env w)).1.2
                   (update cls (w_cfg w) (w_env w)).2)) /\
    (forall file a p, EvRender file a p ∈ calls ->
       (update cls (w_cfg w) (w_env w)).1.1 = Ok tt /\ a = args /\
       lo_result (run_methods (iter_template_methods cls) kd
                    (update cls (w_cfg w) (w_env w)).1.2
                    (update cls (w_cfg w) (w_env w)).2) = Ok tt /\
       lo_params (run_methods (iter_template_methods cls) kd
                    (update cls (w_cfg w) (w_env w)).1.2
                    (update cls (w_cfg w) (w_env w)).2) = p /\
       get_template_file cls
         (_template_ (lo_cfg (run_methods (iter_template_methods cls) kd
                                (update cls (w_cfg w) (w_env w)).1.2
                                (update cls (w_cfg w) (w_env w)).2)))
       = Ok file).
Proof.
  intros Hkw. rewrite (render_unfold _ _ _ kd) by done. unfold render_outcome.
  destruct (update cls (w_cfg w) (w_env w)) as [[[[]|e] c1] e1]; simpl.
  2: { exists [EvUpdate]. split_and!; [done|by left|].
       intros file a p Hin. by apply list_elem_of_singleton in Hin. }
  destruct (run_methods (iter_template_methods cls) kd c1 e1)
    as [r p c2 e2 names]. simpl.
  assert (forall tail, invoked tail = [] ->
            invoked (EvUpdate :: (EvMethod <$> names) ++ tail) = names) as Hinv.
  { intros tail Ht. change (invoked ((EvMethod <$> names) ++ tail) = names).
    by rewrite invoked_app, invoked_methods, Ht, app_nil_r. }
  assert (forall file a q, EvRender file a q ∉ EvMethod <$> names) as Hm.
  { intros file a q Hin. apply list_elem_of_fmap in Hin as [? [? _]]. done. }
  destruct r as [[]|e].
  2: { exists (EvUpdate :: (EvMethod <$> names) ++ []).
       rewrite app_nil_r at 1. split_and!; [done|right; by apply Hinv|].
       intros file a q Hin. rewrite app_nil_r in Hin.
       apply elem_of_cons in Hin as [?|Hin]; [done|]. by apply Hm in Hin. }
  destruct (get_template_file cls (_template_ c2)) as [file|e] eqn:Hres.
  - exists (EvUpdate :: (EvMethod <$> names)
            ++ [EvResolve (_template_ c2); EvRender file args p]).
    split_and!; [simpl; by rewrite <- app_assoc|right; by apply Hinv|].
    intros f a q Hin. apply elem_of_cons in Hin as [?|Hin]; [done|].
    apply elem_of_app in Hin as [Hin|Hin]; [by apply Hm in Hin|].
    apply elem_of_cons in Hin as [?|Hin]; [done|].
    apply list_elem_of_singleton in Hin. by simplify_eq.
  - exists (EvUpdate :: (EvMethod <$> names) ++ [EvResolve (_template_ c2)]).
    split_and!; [simpl; by rewrite <- app_assoc|right; by apply Hinv|].
    intros f a q Hin. apply elem_of_cons in Hin as [?|Hin]; [done|].
    apply elem_of_app in Hin as [Hin|Hin]; [by apply Hm in Hin|].
    by apply list_elem_of_singleton in Hin.
Qed.

(** X1.  [render] raises nothing of its own: an exception that leaves it
    was raised by [update], by a discovered template method, by the
    resolver or by the engine. *)
Theorem render_raises_from_callee cls args kwargs kd w e :
  w_heap w !! kwargs = Some kd ->
  (render cls args kwargs w).1 = Raise e ->
  (update cls (w_cfg w) (w_env w)).1.1 = Raise e \/
  (exists name obj c e0, (name, obj) ∈ iter_template_methods cls /\
                         (obj c e0).1.1 = Raise e) \/
  (exists reference, get_template_file cls reference = Raise e) \/
  (exists file c p e0, (render_template file c args p e0).1 = Raise e).
Proof.
  intros Hkw. rewrite (render_unfold _ _ _ kd) by done. unfold render_outcome.
  destruct (update cls (w_cfg w) (w_env w)) as [[[[]|e0] c1] e1]; simpl.
  2: { intros [= ->]. by left. }
  pose proof (run_methods_raise (iter_template_methods cls) kd c1 e1) as Hraise.
  destruct (run_methods (iter_template_methods cls) kd c1 e1)
    as [r p c2 e2 names]. simpl in *.
  destruct r as [[]|e3]; simpl.
  2: { intros [= ->]. right. left. by apply Hraise. }
  destruct (get_template_file cls (_template_ c2)) as [file|e3] eqn:Hres; simpl.
  - intros Heng. right. right. right. by exists file, c2, p, e2.
  - intros [= ->]. right. right. left. by exists (_template_ c2).
Qed.

(** X2.  The order of the calls of one [render]: [update], then template
    methods, then at most one call of the resolver, on the [_template_]
    the instance holds after the hooks have run, then at most one call of
    the engine, with the positional arguments as they were passed.  When
    [render] returns, both the resolver and the engine were called. *)
Theorem render_call_order cls args kwargs kd w :
  w_heap w !! kwargs = Some kd ->
  exists names tail,
    w_calls (render cls args kwargs w).2
    = w_calls w ++ EvUpdate :: (EvMethod <$> names) ++ tail /\
    (tail = [] \/
     tail = [EvResolve (_template_ (w_cfg (render cls args kwargs w).2))] \/
     exists file p,
       tail = [EvResolve (_template_ (w_cfg (render cls args kwargs w).2));
               EvRender file args p]) /\
    (forall s, (render cls args kwargs w).1 = Ok s ->
       exists file p,
         tail = [EvResolve (_template_ (w_cfg (render cls args kwargs w).2));
                 EvRender file args p]).
Proof.
  intros Hkw. rewrite (render_unfold _ _ _ kd) by done. unfold render_outcome.
  destruct (update cls (w_cfg w) (w_env w)) as [[[[]|e0] c1] e1]; simpl.
  2: { exists [], []. split_and!; [done|by left|done]. }
  destruct (run_methods (iter_template_methods cls) kd c1 e1)
    as [r p c2 e2 names]. simpl.
  destruct r as [[]|e3]; simpl.
  2: { exists names, []. rewrite app_nil_r. split_and!; [done|by left|done]. }
  destruct (get_template_file cls (_template_ c2)) as [file|e3]; simpl.
  - exists names, [EvResolve (_template_ c2); EvRender file args p].
    split_and!; [by rewrite <- app_assoc| |].
    + right. right. by exists file, p.
    + intros s _. by exists file, p.
  - exists names, [EvResolve (_template_ c2)].
    split_and!; [by rewrite <- app_assoc|right; by left|done].
Qed.


(** X4.  The [FileNotFoundError] of the docstring: when [update] and the
    discovered template methods return and the resolver raises for the
    [_template_] the instance holds after the hooks, [render] raises that
    exception; the engine is never called, but every template method
    outside the explicit parameters has been invoked by then. *)
Theorem render_template_not_found cls args kwargs kd w e :
  w_heap w !! kwargs = Some kd ->
  (update cls (w_cfg w) (w_env w)).1.1 = Ok tt ->
  (forall name obj c e0,
     (name, obj) ∈ iter_template_methods cls ->
     exists v c' e', obj c e0 = (Ok v, c', e')) ->
  get_template_file cls (_template_ (w_cfg (render cls args kwargs w).2))
  = Raise e ->
  (render cls args kwargs w).1 = Raise e /\
  exists calls,
    w_calls (render cls args kwargs w).2 = w_calls w ++ calls /\
    (forall file a p, EvRender file a p ∉ calls) /\
    invoked calls = to_call (dom kd) (iter_template_methods cls).*1.
Proof.
  intros Hkw Hup Hok. rewrite (render_unfold _ _ _ kd) by done.
  unfold render_outcome.
  destruct (update cls (w_cfg w) (w_env w)) as [[r0 c1] e1].
  simpl in Hup. subst r0.
  pose proof (run_methods_ok (iter_template_methods cls) kd c1 e1 Hok) as Hr.
  pose proof (run_methods_names (iter_template_methods cls) kd c1 e1)
    as [_ Hall].
  destruct (run_methods (iter_template_methods cls) kd c1 e1)
    as [r p c2 e2 names]. simpl in *. subst r.
  destruct (get_template_file cls (_template_ c2)) as [file|e3] eqn:Hres;
    simpl; rewrite Hres; [done|].
  intros [= ->]. split; [done|].
  exists (EvUpdate :: (EvMethod <$> names) ++ [EvResolve (_template_ c2)]).
  split_and!.
  - by rewrite <- app_assoc.
  - intros file a q Hin. apply elem_of_cons in Hin as [?|Hin]; [done|].
    apply elem_of_app in Hin as [Hin|Hin].
    + apply list_elem_of_fmap in Hin as [? [? _]]. done.
    + by apply list_elem_of_singleton in Hin.
  - change (invoked ((EvMethod <$> names) ++ [EvResolve (_template_ c2)])
            = to_call (dom kd) (iter_template_methods cls).*1).
    rewrite invoked_app, invoked_methods, app_nil_r. by apply Hall.
Qed.

(** X5.  The keys of the parameter set the engine receives are exactly the
    explicit keyword arguments and the discovered names. *)
Theorem render_params_domain cls args kwargs kd w :
  w_heap w !! kwargs = Some kd ->
  exists calls,
    w_calls (render cls args kwargs w).2 = w_calls w ++ calls /\
    forall file a p, EvRender file a p ∈ calls ->
      dom p = dom kd ∪ list_to_set (iter_template_methods cls).*1.
Proof.
  intros Hkw.
  destruct (render_log cls args kwargs kd w Hkw) as (calls & Hcalls & _ & Heng).
  exists calls. split; [done|]. intros file a p Hin.
  destruct (Heng _ _ _ Hin) as (_ & _ & Hrun & <- & _).
  by apply run_methods_dom.
Qed.



(** X8.  Explicit keyword arguments for every discovered name switch the
    template methods off: none is invoked, and the engine receives the
    keyword arguments as they are. *)
Theorem render_all_explicit cls args kwargs kd w :
  w_heap w !! kwargs = Some kd ->
  (forall n, n ∈ (iter_template_methods cls).*1 -> is_Some (kd !! n)) ->
  exists calls,
    w_calls (render cls args kwargs w).2 = w_calls w ++ calls /\
    invoked calls = [] /\
    forall file a p, EvRender file a p ∈ calls -> p = kd.
Proof.
  intros Hkw Hall.
  destruct (render_log cls args kwargs kd w Hkw)
    as (calls & Hcalls & Hinv & Heng).
  exists calls. split; [done|].
  rewrite (run_methods_all_keys _ _ _ _ Hall) in Hinv, Heng. split.
  - by destruct Hinv.
  - intros file a p Hin.
    by destruct (Heng _ _ _ Hin) as (_ & _ & _ & <- & _).
Qed.

End RenderFacts.

(** ** Dispatch of [RenderableEnum] *)

Section EnumFacts.

Import RenderableEnum.

(** No member carries the name: the loop falls through. *)
Lemma render_members_absent name members :
  name ∉ members.*1 ->
  render_members name members = raise (ValueError (no_class_msg name)).
Proof.
  induction members as [|[n obj] rest IH]; intros Hno; simpl; [done|].
  rewrite fmap_cons, not_elem_of_cons in Hno. destruct Hno as [Hne Hno].
  rewrite decide_False by done. by apply IH.
Qed.

Lemma render_members_present name obj members :
  NoDup members.*1 -> (name, obj) ∈ members ->
  render_members name members = dispatch name obj.
Proof.
  induction members as [|[n o] rest IH]; intros Hnd Hin.
  - by apply elem_of_nil in Hin.
  - rewrite fmap_cons in Hnd. apply NoDup_cons in Hnd as [Hn Hnd]. simpl in *.
    apply elem_of_cons in Hin as [Heq|Hin].
    + simplify_eq. rewrite decide_True by done.
      destruct o as [c|v]; [|done]. simpl.
      destruct (is_renderable c); [done|].
      by apply render_members_absent.
    + rewrite decide_False; [by apply IH|].
      intros ->. apply Hn. apply list_elem_of_fmap. by exists (name, obj).
Qed.

Lemma getmembers_NoDup module : NoDup (getmembers module).*1.
Proof.
  unfold getmembers. rewrite merge_sort_Permutation.
  apply NoDup_fst_map_to_list.
Qed.

Lemma elem_of_getmembers module name obj :
  (name, obj) ∈ getmembers module <-> module !! name = Some obj.
Proof.
  unfold getmembers. rewrite merge_sort_Permutation.
  apply elem_of_map_to_list.
Qed.

(** [render] is decided by what the module binds under the member's
    name. *)
Lemma render_bound name module obj :
  module !! name = Some obj -> render name module = dispatch name obj.
Proof.
  intros Hb. unfold render. apply render_members_present.
  - apply getmembers_NoDup.
  - by apply elem_of_getmembers.
Qed.

Lemma render_unbound name module :
  module !! name = None ->
  render name module = raise (ValueError (no_class_msg name)).
Proof.
  intros Hb. unfold render. apply render_members_absent.
  intros Hin. apply list_elem_of_fmap in Hin as [[n obj] [-> Hin]].
  apply elem_of_getmembers in Hin. simpl in *. congruence.
Qed.

(** C7.  If the member's module binds, under the member's name, a class
    that is a subclass of [Renderable], the member's [render] is that
    class's [render]: the same result and the same effects.  The module is
    read when the call is made: whatever was bound before, once the class
    is bound under the name it is found. *)
Theorem enum_render_forwards name module c :
  module !! name = Some (ObjClass c) -> is_renderable c = true ->
  (forall w, render name module w = cls_render c w) /\
  (forall earlier w,
     render name (<[name := ObjClass c]> earlier) w = cls_render c w).
Proof.
  intros Hb Hr. split.
  - intros w. rewrite (render_bound _ _ _ Hb). simpl. by rewrite Hr.
  - intros earlier w.
    rewrite (render_bound _ _ (ObjClass c)) by apply lookup_insert_eq.
    simpl. by rewrite Hr.
Qed.

(** C2, as the code has it.  If the member's module binds nothing under
    the member's name, or binds a class that is not a subclass of
    [Renderable], the member's [render] raises [ValueError] with the
    message "No renderable class found for <name>", and changes nothing. *)
Theorem enum_render_no_class name module w :
  (module !! name = None \/
   exists c, module !! name = Some (ObjClass c) /\ is_renderable c = false) ->
  render name module w = (Raise (ValueError (no_class_msg name)), w).
Proof.
  intros [Hb|[c [Hb Hr]]].
  - by rewrite render_unbound.
  - rewrite (render_bound _ _ _ Hb). simpl. by rewrite Hr.
Qed.

(** C10.  If the member's module binds, under the member's name, a value
    that is not a class, the member's [render] raises the [TypeError] of
    [issubclass], not the "No renderable class found" error. *)
Theorem enum_render_non_class name module v w :
  module !! name = Some (ObjValue v) ->
  render name module w
  = (Raise (TypeError "issubclass() arg 1 must be a class"), w) /\
  render name module w <> (Raise (ValueError (no_class_msg name)), w).
Proof.
  intros Hb. rewrite (render_bound _ _ _ Hb). simpl. split; [done|].
  unfold raise. congruence.
Qed.

(** X9.  The dispatch looks at one binding only: two modules that bind
    the same thing under the member's name give the same [render],
    whatever else they bind; in particular the other names of a module,
    which are mostly not classes, never make [issubclass] raise. *)
Theorem enum_render_local name module1 module2 :
  module1 !! name = module2 !! name ->
  render name module1 = render name module2.
Proof.
  intros Heq. destruct (module1 !! name) as [obj|] eqn:H1.
  - rewrite (render_bound _ _ _ H1). symmetry. by apply render_bound.
  - rewrite (render_unbound _ _ H1). symmetry. by apply render_unbound.
Qed.

End EnumFacts.

(** ** An enum member that names a configuration class *)

Section DispatchFacts.

Import BaseConfig RenderableEnum Call.

Variable iter_template_methods : ConfigClass -> list (string * Hook Value).
Variable get_template_file : ConfigClass -> Path -> Result Path.
Variable render_template : Engine.

Lemma to_call_empty names : NoDup names -> to_call ∅ names = names.
Proof.
  intros Hnd. rewrite to_call_filter by done. clear Hnd.
  induction names as [|n rest IH]; [done|].
  rewrite filter_cons_True by apply not_elem_of_empty. by rewrite IH.
Qed.

(** X10.  Dispatch through an enum member to a subclass of [BaseConfig]
    renders with no positional argument and no explicit parameter: the
    calls start with [update]; no template method is shadowed, so with
    pairwise distinct discovered names the methods invoked are the
    discovered ones in discovery order (all of them when the call
    returns); and the value returned is the string of the engine, called
    with exactly the discovered names as parameters. *)
Theorem enum_render_config name module cls w :
  module !! name
  = Some (ObjClass (as_renderable iter_template_methods get_template_file
                      render_template cls)) ->
  NoDup (iter_template_methods cls).*1 ->
  exists calls,
    w_calls (RenderableEnum.render name module w).2
    = w_calls w ++ EvUpdate :: calls /\
    invoked calls `prefix_of` (iter_template_methods cls).*1 /\
    (forall v, (RenderableEnum.render name module w).1 = Ok v ->
       invoked calls = (iter_template_methods cls).*1 /\
       exists file p s e0,
         v = VStr s /\
         (render_template file
            (w_cfg (RenderableEnum.render name module w).2) [] p e0).1
         = Ok s /\
         EvRender file [] p ∈ calls /\
         dom p = list_to_set (iter_template_methods cls).*1).
Proof.
  intros Hb Hnd. rewrite (render_bound _ _ _ Hb). simpl.
  rewrite bind_unfold. unfold call_render. rewrite bind_unfold.
  unfold dict_new at 1. simpl.
  set (l := fresh (dom (w_heap w))).
  set (w1 := MkWorld (w_cfg w) (w_env w) (<[l := ∅]> (w_heap w)) (w_calls w)).
  assert (w_heap w1 !! l = Some ∅) as Hl by apply lookup_insert_eq.
  rewrite (render_unfold _ _ _ _ _ _ ∅ w1 Hl). unfold render_outcome.
  simpl.
  destruct (update cls (w_cfg w) (w_env w)) as [[[[]|e0] c1] e1]; simpl.
  2: { exists []. split_and!; [done|apply prefix_nil|done]. }
  pose proof (run_methods_names (iter_template_methods cls) ∅ c1 e1)
    as [Hpre Hall].
  pose proof (run_methods_dom (iter_template_methods cls) ∅ c1 e1) as Hdom.
  rewrite dom_empty_L, (to_call_empty _ Hnd) in Hpre, Hall.
  rewrite dom_empty_L, (left_id_L ∅ (∪)) in Hdom.
  destruct (run_methods (iter_template_methods cls) ∅ c1 e1)
    as [r p c2 e2 names]. simpl in *.
  assert (forall tail, invoked tail = [] ->
            invoked ((EvMethod <$> names) ++ tail) = names) as Hinv.
  { intros tail Ht. by rewrite invoked_app, invoked_methods, Ht, app_nil_r. }
  destruct r as [[]|e3]; simpl.
  2: { exists ((EvMethod <$> names) ++ []). rewrite app_nil_r at 1.
       split_and!; [done|by rewrite Hinv|done]. }
  destruct (get_template_file cls (_template_ c2)) as [file|e3]; simpl.
  - destruct (render_template file c2 [] p e2) as [[s|e4] e5] eqn:Heng; simpl;
      exists ((EvMethod <$> names)
              ++ [EvResolve (_template_ c2); EvRender file [] p]);
      (split_and!; [by rewrite <- app_assoc|by rewrite Hinv|]); [|done].
    intros v [= <-]. split; [rewrite Hinv by done; by apply Hall|].
    exists file, p, s, e2. split_and!; [done|by rewrite Heng| |by apply Hdom].
    apply elem_of_app. right. apply elem_of_cons. right.
    by apply list_elem_of_singleton.
  - exists ((EvMethod <$> names) ++ [EvResolve (_template_ c2)]).
    split_and!; [by rewrite <- app_assoc|by rewrite Hinv|done].
Qed.

End DispatchFacts.

(** ** The template resolver *)

Section ResolverFacts.

Import Template.

Lemma first_existing_hit fs before c after :
  (forall b, b ∈ before -> path_exists fs b = false) ->
  path_exists fs c = true ->
  first_existing fs (before ++ c :: after) = (Some c, before ++ [c]).
Proof.
  induction before as [|b rest IH]; intros Hno Hc; simpl.
  - by rewrite Hc.
  - rewrite (Hno b) by (apply elem_of_cons; by left).
    rewrite IH; [done| |done].
    intros b' Hb'. apply Hno, elem_of_cons. by right.
Qed.

Lemma first_existing_none fs cands :
  (forall c, c ∈ cands -> path_exists fs c = false) ->
  first_existing fs cands = (None, cands).
Proof.
  induction cands as [|c rest IH]; intros Hno; simpl; [done|].
  rewrite (Hno c) by (apply elem_of_cons; by left).
  rewrite IH; [done|].
  intros c' Hc'. apply Hno, elem_of_cons. by right.
Qed.

(** The first element of a list that satisfies a test. *)
Lemma first_split {A} (f : A -> bool) (l : list A) x :
  x ∈ l -> f x = true ->
  exists near y far,
    l = near ++ y :: far /\ f y = true /\ forall b, b ∈ near -> f b = false.
Proof.
  induction l as [|a rest IH]; intros Hin Hx.
  - by apply elem_of_nil in Hin.
  - destruct (f a) eqn:Ha.
    + exists [], a, rest. split_and!; [done..|].
      intros b Hb. by apply elem_of_nil in Hb.
    + apply elem_of_cons in Hin as [->|Hin]; [congruence|].
      destruct (IH Hin Hx) as (near & y & far & -> & Hy & Hnear).
      exists (a :: near), y, far. split_and!; [done..|].
      intros b Hb. apply elem_of_cons in Hb as [->|Hb]; [done|].
      by apply Hnear.
Qed.

(** The resolver on the situations of [tests/test_template.py]. *)
Example test_existing_file :
  (get_template_file Examples.fs_existing Examples.tests_dir
     (MkPath true ["tmp"; "template.jinja"]) None).1
  = Ok (MkPath true ["tmp"; "template.jinja"]).
Proof. reflexivity. Qed.

Example test_existing_file_in_dir :
  (get_template_file Examples.fs_in_dir Examples.tests_dir
     Examples.template_jinja (Some Examples.dir)).1
  = Ok (MkPath true ["tmp"; "dir"; "template.jinja"]).
Proof. reflexivity. Qed.

Example test_get_from_class :
  (get_template_file Examples.fs_class Examples.tests_dir
     Examples.template_jinja None).1
  = Ok (MkPath true ["repo"; "tests"; "template.jinja"]).
Proof. reflexivity. Qed.

Example test_get_from_class_parent_dir :
  (get_template_file Examples.fs_parent Examples.tests_dir
     Examples.template_jinja (Some Examples.dir)).1
  = Ok (MkPath true ["repo"; "dir"; "template.jinja"]).
Proof. reflexivity. Qed.

Example test_current_dir_not_found :
  (get_template_file Examples.fs_none Examples.tests_dir
     Examples.template_jinja None).1
  = Raise (FileNotFoundError Examples.template_jinja).
Proof. reflexivity. Qed.

(** C3, as the resolver has it.  A reference that exists as it is given
    (absolute, or relative to the current working directory) is returned
    as it is, whatever the directory argument; a reference that does not,
    but exists under the given directory of the current working directory,
    is returned as that joined path.  In both cases only these locations
    are consulted, none relative to the class's source. *)
Theorem resolve_existing fs D reference :
  (forall directory,
     path_exists fs reference = true ->
     get_template_file fs D reference directory
     = (Ok reference, [reference])) /\
  (forall d,
     path_exists fs reference = false ->
     path_exists fs (MkPath true (cwd fs) // d // reference) = true ->
     get_template_file fs D reference (Some d)
     = (Ok (MkPath true (cwd fs) // d // reference),
        [reference; MkPath true (cwd fs) // d // reference])).
Proof.
  split.
  - intros directory Hex. unfold get_template_file, candidates, cwd_candidates.
    simpl. by rewrite Hex.
  - intros d Hno Hex. unfold get_template_file, candidates, cwd_candidates.
    simpl. by rewrite Hno, Hex.
Qed.

(** C4.  For a reference that step 1 does not find in the current working
    directory: if [D/name] exists, it is the result of
    [get_template_file(C, name)]; if the candidate of [D] is absent and an
    ancestor of [D] has the file under the join rule, the result is the
    file of the nearest such ancestor (so of [A], when no ancestor nearer
    than [A] has it); if no candidate of the search order exists, the
    result is a [FileNotFoundError] that names the reference, after all
    candidates have been consulted. *)
Theorem resolve_search fs D name :
  (path_exists fs name = false ->
   path_exists fs (D // name) = true ->
   get_template_file fs D name None = (Ok (D // name), [name; D // name])) /\
  (forall directory,
     (forall c, c ∈ cwd_candidates fs directory name ->
                path_exists fs c = false) ->
     path_exists fs (join_rule D directory name) = false ->
     (forall A, A ∈ parents D ->
        path_exists fs (join_rule A directory name) = true ->
        exists A', A' ∈ parents D /\
          path_exists fs (join_rule A' directory name) = true /\
          (get_template_file fs D name directory).1
          = Ok (join_rule A' directory name)) /\
     (forall near A far,
        parents D = near ++ A :: far ->
        (forall B, B ∈ near ->
           path_exists fs (join_rule B directory name) = false) ->
        path_exists fs (join_rule A directory name) = true ->
        (get_template_file fs D name directory).1
        = Ok (join_rule A directory name))) /\
  (forall directory,
     (forall c, c ∈ candidates fs D directory name ->
                path_exists fs c = false) ->
     get_template_file fs D name directory
     = (Raise (FileNotFoundError name), candidates fs D directory name)).
Proof.
  split_and!.
  - intros Hno Hex. unfold get_template_file, candidates, cwd_candidates,
      class_candidates. simpl. by rewrite Hno, Hex.
  - intros directory Hcwd HD.
    assert (forall near A far,
      parents D = near ++ A :: far ->
      (forall B, B ∈ near ->
         path_exists fs (join_rule B directory name) = false) ->
      path_exists fs (join_rule A directory name) = true ->
      (get_template_file fs D name directory).1
      = Ok (join_rule A directory name)) as Hnearest.
    { intros near A far Hsplit Hnear HA.
      unfold get_template_file, candidates, class_candidates.
      rewrite Hsplit, fmap_cons, fmap_app, fmap_cons.
      set (j := fun base => join_rule base directory name).
      replace (cwd_candidates fs directory name
               ++ j D :: (j <$> near) ++ j A :: (j <$> far))
        with ((cwd_candidates fs directory name ++ j D :: (j <$> near))
              ++ j A :: (j <$> far))
        by (by rewrite <- app_assoc).
      rewrite first_existing_hit; [done| |done].
      intros b Hb. apply elem_of_app in Hb as [Hb|Hb]; [by apply Hcwd|].
      apply elem_of_cons in Hb as [->|Hb]; [done|].
      apply list_elem_of_fmap in Hb as [B [-> HB]]. by apply Hnear. }
    split; [|done].
    intros A HA Hex.
    destruct (first_split
                (fun B => path_exists fs (join_rule B directory name))
                (parents D) A HA Hex)
      as (near & A' & far & Hsplit & HA' & Hnear).
    exists A'. split_and!; [|done|by apply (Hnearest near A' far)].
    rewrite Hsplit. apply elem_of_app. right. apply elem_of_cons. by left.
  - intros directory Hno. unfold get_template_file.
    by rewrite first_existing_none.
Qed.

End ResolverFacts.

(** ** The theorems at concrete inputs *)

Section Instances.

Import Examples.

Local Abbreviation render1 := (BaseConfig.render discovered resolver engine).

(** Explicit [x=5] against the discovered methods [x] and [y]. *)
Lemma render_explicit_kwargs_win_witness :
  w_heap w0 !! 0 = Some kwargs0 /\
  exists calls,
    w_calls (render1 plain_class [] 0 w0).2 = w_calls w0 ++ calls /\
    (forall k, is_Some (kwargs0 !! k) -> EvMethod k ∉ calls) /\
    (forall file a p, EvRender file a p ∈ calls ->
       forall k v, kwargs0 !! k = Some v -> p !! k = Some v) /\
    BaseConfig.invoked calls `prefix_of`
      BaseConfig.to_call (dom kwargs0) (discovered plain_class).*1 /\
    BaseConfig.to_call (dom kwargs0) (discovered plain_class).*1
      `sublist_of` (discovered plain_class).*1 /\
    (forall s, (render1 plain_class [] 0 w0).1 = Ok s ->
       BaseConfig.invoked calls
       = BaseConfig.to_call (dom kwargs0) (discovered plain_class).*1 /\
       exists file p, EvRender file [] p ∈ calls).
Proof.
  split; [reflexivity|].
  apply (render_explicit_kwargs_win discovered resolver engine
           plain_class [] 0 kwargs0 w0).
  reflexivity.
Defined.

(** The default [update], and an [update] that raises. *)
Lemma render_update_first_witness :
  (w_heap w0 !! 0 = Some kwargs0 /\
   exists rest,
     w_calls (render1 plain_class [] 0 w0).2 = w_calls w0 ++ EvUpdate :: rest /\
     EvUpdate ∉ rest) /\
  (BaseConfig.update failing_class (w_cfg w0) (w_env w0)
   = (Raise (HookError "update"), cfg0, env0) /\
   render1 failing_class [] 0 w0
   = (Raise (HookError "update"),
      MkWorld cfg0 env0 (w_heap w0) (w_calls w0 ++ [EvUpdate]))).
Proof.
  split; (split; [reflexivity|]).
  - apply (proj1 (render_update_first discovered resolver engine
                    plain_class [] 0 w0) kwargs0).
    reflexivity.
  - apply (proj2 (render_update_first discovered resolver engine
                    failing_class [] 0 w0)).
    reflexivity.
Defined.

(** The dictionary at address 0 after a call that injects [y]. *)
Lemma render_kwargs_unchanged_witness :
  w_heap w0 !! 0 = Some kwargs0 /\
  w_heap (render1 plain_class [] 0 w0).2 !! 0 = Some kwargs0 /\
  (fresh (dom (w_heap w0)) ∉ dom (w_heap w0)) /\
  (forall l, l <> fresh (dom (w_heap w0)) ->
     w_heap (render1 plain_class [] 0 w0).2 !! l = w_heap w0 !! l).
Proof.
  split; [reflexivity|].
  apply (render_kwargs_unchanged discovered resolver engine
           plain_class [] 0 kwargs0 w0).
  reflexivity.
Defined.



(** The same happens with the default [update] when a template method
    changes the global state: with a method [s] that counts its calls in
    the global [g], the first call gives "1" and the second "1!". *)
Example render_twice_counts :
  (BaseConfig.render discovered_counting resolver engine plain_class [] 0
     w0).1 = Ok "1" /\
  (BaseConfig.render discovered_counting resolver engine plain_class [] 0
     (BaseConfig.render discovered_counting resolver engine
        plain_class [] 0 w0).2).1 = Ok "1!".
Proof. split; vm_compute; reflexivity. Qed.

(** A module that binds the class [Title]. *)
Lemma enum_render_forwards_witness :
  module_with_class !! "Title" = Some (RenderableEnum.ObjClass Title) /\
  RenderableEnum.is_renderable Title = true /\
  (forall w, RenderableEnum.render "Title" module_with_class w
             = RenderableEnum.cls_render Title w) /\
  (forall earlier w,
     RenderableEnum.render "Title"
       (<["Title" := RenderableEnum.ObjClass Title]> earlier) w
     = RenderableEnum.cls_render Title w).
Proof.
  split; [reflexivity|]. split; [reflexivity|].
  apply (enum_render_forwards "Title" module_with_class Title); reflexivity.
Defined.

(** An empty module. *)
Lemma enum_render_no_class_witness :
  (∅ : gmap string RenderableEnum.PyObj) !! "Title" = None /\
  RenderableEnum.render "Title" ∅ w0
  = (Raise (ValueError (RenderableEnum.no_class_msg "Title")), w0).
Proof.
  split; [reflexivity|].
  apply (enum_render_no_class "Title" ∅ w0). left. reflexivity.
Defined.

(** C2 fails on the class of the exception: for a module that binds
    nothing under the member's name, [render] raises [ValueError], which
    is not a [LookupError]. *)
Lemma enum_render_not_LookupError :
  (∅ : gmap string RenderableEnum.PyObj) !! "Title" = None /\
  RenderableEnum.render "Title" ∅ w0
  = (Raise (ValueError "No renderable class found for Title"), w0) /\
  RenderableEnum.render "Title" ∅ w0
  <> (Raise (LookupError "No renderable class found for Title"), w0).
Proof.
  split; [reflexivity|].
  assert (RenderableEnum.render "Title" ∅ w0
          = (Raise (ValueError "No renderable class found for Title"), w0))
    as Heq by reflexivity.
  split; [done|]. rewrite Heq. congruence.
Qed.

(** A module that binds an integer under [Title]. *)
Lemma enum_render_non_class_witness :
  module_with_value !! "Title" = Some (RenderableEnum.ObjValue (VInt 3)) /\
  RenderableEnum.render "Title" module_with_value w0
  = (Raise (TypeError "issubclass() arg 1 must be a class"), w0) /\
  RenderableEnum.render "Title" module_with_value w0
  <> (Raise (ValueError (RenderableEnum.no_class_msg "Title")), w0).
Proof.
  split; [reflexivity|].
  apply (enum_render_non_class "Title" module_with_value (VInt 3) w0).
  reflexivity.
Defined.

(** [test_existing_file] and [test_existing_file_in_dir]. *)
Lemma resolve_existing_witness :
  (Template.path_exists fs_existing (_template_ cfg0) = true /\
   Template.get_template_file fs_existing tests_dir (_template_ cfg0) None
   = (Ok (_template_ cfg0), [_template_ cfg0])) /\
  (Template.path_exists fs_in_dir template_jinja = false /\
   Template.path_exists fs_in_dir
     (MkPath true (Template.cwd fs_in_dir) // dir // template_jinja) = true /\
   Template.get_template_file fs_in_dir tests_dir template_jinja (Some dir)
   = (Ok (MkPath true (Template.cwd fs_in_dir) // dir // template_jinja),
      [template_jinja;
       MkPath true (Template.cwd fs_in_dir) // dir // template_jinja])).
Proof.
  split.
  - split; [reflexivity|].
    apply (proj1 (resolve_existing fs_existing tests_dir (_template_ cfg0))).
    reflexivity.
  - split; [reflexivity|]. split; [reflexivity|].
    apply (proj2 (resolve_existing fs_in_dir tests_dir template_jinja));
      reflexivity.
Defined.

(** C3 fails when the reference exists only under the directory argument:
    in [test_existing_file_in_dir] the resolver is called with
    [template.jinja] and returns [/tmp/dir/template.jinja], not the
    reference itself. *)
Lemma resolve_in_dir_not_reference :
  Template.path_exists fs_in_dir
    (MkPath true (Template.cwd fs_in_dir) // dir // template_jinja) = true /\
  (Template.get_template_file fs_in_dir tests_dir template_jinja (Some dir)).1
  = Ok (MkPath true ["tmp"; "dir"; "template.jinja"]) /\
  (Template.get_template_file fs_in_dir tests_dir template_jinja (Some dir)).1
  <> Ok template_jinja.
Proof.
  split; [reflexivity|].
  assert ((Template.get_template_file fs_in_dir tests_dir template_jinja
             (Some dir)).1
          = Ok (MkPath true ["tmp"; "dir"; "template.jinja"])) as Heq
    by reflexivity.
  split; [done|]. rewrite Heq. unfold template_jinja. congruence.
Qed.

(** [test_get_from_class], [test_get_from_class_parent_dir] and
    [test_current_dir_not_found]. *)
Lemma resolve_search_witness :
  (Template.path_exists fs_class template_jinja = false /\
   Template.path_exists fs_class (tests_dir // template_jinja) = true /\
   Template.get_template_file fs_class tests_dir template_jinja None
   = (Ok (tests_dir // template_jinja),
      [template_jinja; tests_dir // template_jinja])) /\
  (Template.parents tests_dir = [] ++ MkPath true ["repo"] :: [MkPath true []] /\
   Template.path_exists fs_parent
     (Template.join_rule (MkPath true ["repo"]) (Some dir) template_jinja)
   = true /\
   (Template.get_template_file fs_parent tests_dir template_jinja (Some dir)).1
   = Ok (Template.join_rule (MkPath true ["repo"]) (Some dir) template_jinja)) /\
  Template.get_template_file fs_none tests_dir template_jinja None
  = (Raise (FileNotFoundError template_jinja),
     Template.candidates fs_none tests_dir None template_jinja).
Proof.
  split; [|split].
  - split; [reflexivity|]. split; [reflexivity|].
    apply (proj1 (resolve_search fs_class tests_dir template_jinja));
      reflexivity.
  - split; [reflexivity|]. split; [reflexivity|].
    apply (proj2 (proj1 (proj2 (resolve_search fs_parent tests_dir
                                  template_jinja))
                    (Some dir)
                    ltac:(intros c Hc; simpl in Hc;
                          repeat (apply elem_of_cons in Hc as [->|Hc];
                                  [reflexivity|]);
                          by apply elem_of_nil in Hc)
                    eq_refl)
             [] (MkPath true ["repo"]) [MkPath true []]).
    + reflexivity.
    + intros B HB. by apply elem_of_nil in HB.
    + reflexivity.
  - apply (proj2 (proj2 (resolve_search fs_none tests_dir template_jinja))).
    intros c Hc. vm_compute in Hc.
    repeat (apply elem_of_cons in Hc as [->|Hc]; [reflexivity|]).
    by apply elem_of_nil in Hc.
Defined.

End Instances.

(** ** The further properties at concrete inputs *)

Section MoreInstances.

Import Examples MoreExamples.

Local Abbreviation render1 := (BaseConfig.render discovered resolver engine).
Local Abbreviation render2 := (BaseConfig.render discovered no_resolver engine).

Lemma discovered_pure name obj c e :
  (name, obj) ∈ discovered plain_class ->
  (exists v, obj c e = (Ok v, c, e)) /\ (obj c e).1.2 = c.
Proof.
  intros Hin. simpl in Hin.
  apply elem_of_cons in Hin as [Heq|Hin].
  - simplify_eq. split; [by exists (VInt 1)|done].
  - apply list_elem_of_singleton in Hin. simplify_eq.
    split; [by exists (VInt 2)|done].
Qed.

Lemma discovered_NoDup : NoDup (discovered plain_class).*1.
Proof.
  simpl. apply NoDup_cons. split.
  - intros Hin. by apply list_elem_of_singleton in Hin.
  - apply NoDup_singleton.
Qed.

(** An [update] that raises. *)
Lemma render_raises_from_callee_witness :
  w_heap w0 !! 0 = Some kwargs0 /\
  (render1 failing_class [] 0 w0).1 = Raise (HookError "update") /\
  ((BaseConfig.update failing_class (w_cfg w0) (w_env w0)).1.1
   = Raise (HookError "update") \/
   (exists name obj c e0, (name, obj) ∈ discovered failing_class /\
                          (obj c e0).1.1 = Raise (HookError "update")) \/
   (exists reference, resolver failing_class reference
                      = Raise (HookError "update")) \/
   (exists file c p e0, (engine file c [] p e0).1 = Raise (HookError "update"))).
Proof.
  split; [reflexivity|]. split; [reflexivity|].
  apply (render_raises_from_callee discovered resolver engine
           failing_class [] 0 kwargs0 w0 (HookError "update"));
    reflexivity.
Defined.

(** The default [update] and the explicit [x=5]. *)
Lemma render_call_order_witness :
  w_heap w0 !! 0 = Some kwargs0 /\
  exists names tail,
    w_calls (render1 plain_class [] 0 w0).2
    = w_calls w0 ++ EvUpdate :: (EvMethod <$> names) ++ tail /\
    (tail = [] \/
     tail = [EvResolve (_template_ (w_cfg (render1 plain_class [] 0 w0).2))] \/
     exists file p,
       tail = [EvResolve (_template_ (w_cfg (render1 plain_class [] 0 w0).2));
               EvRender file [] p]) /\
    (forall s, (render1 plain_class [] 0 w0).1 = Ok s ->
       exists file p,
         tail = [EvResolve (_template_ (w_cfg (render1 plain_class [] 0 w0).2));
                 EvRender file [] p]).
Proof.
  split; [reflexivity|].
  apply (render_call_order discovered resolver engine plain_class [] 0
           kwargs0 w0).
  reflexivity.
Defined.


(** The template [/tmp/template.jinja] is missing from a file system that
    holds another file. *)
Lemma render_template_not_found_witness :
  w_heap w0 !! 0 = Some kwargs0 /\
  (BaseConfig.update plain_class (w_cfg w0) (w_env w0)).1.1 = Ok tt /\
  no_resolver plain_class (_template_ (w_cfg (render2 plain_class [] 0 w0).2))
  = Raise (FileNotFoundError (_template_ cfg0)) /\
  no_resolver plain_class (MkPath true ["tmp"; "dir"; "template.jinja"])
  = Ok (MkPath true ["tmp"; "dir"; "template.jinja"]) /\
  (render2 plain_class [] 0 w0).1
  = Raise (FileNotFoundError (_template_ cfg0)) /\
  exists calls,
    w_calls (render2 plain_class [] 0 w0).2 = w_calls w0 ++ calls /\
    (forall file a p, EvRender file a p ∉ calls) /\
    BaseConfig.invoked calls
    = BaseConfig.to_call (dom kwargs0) (discovered plain_class).*1.
Proof.
  split; [reflexivity|]. split; [reflexivity|]. split; [reflexivity|].
  split; [reflexivity|].
  apply (render_template_not_found discovered no_resolver engine
           plain_class [] 0 kwargs0 w0 (FileNotFoundError (_template_ cfg0))).
  - reflexivity.
  - reflexivity.
  - intros name obj c e Hin.
    destruct (discovered_pure name obj c e Hin) as [[v Hv] _]. by exists v, c, e.
  - reflexivity.
Defined.

Lemma render_params_domain_witness :
  w_heap w0 !! 0 = Some kwargs0 /\
  exists calls,
    w_calls (render1 plain_class [] 0 w0).2 = w_calls w0 ++ calls /\
    forall file a p, EvRender file a p ∈ calls ->
      dom p = dom kwargs0 ∪ list_to_set (discovered plain_class).*1.
Proof.
  split; [reflexivity|].
  apply (render_params_domain discovered resolver engine plain_class [] 0
           kwargs0 w0).
  reflexivity.
Defined.



(** Both discovered names given explicitly. *)
Lemma render_all_explicit_witness :
  w_heap w_xy !! 0 = Some kwargs_xy /\
  exists calls,
    w_calls (render1 plain_class [] 0 w_xy).2 = w_calls w_xy ++ calls /\
    BaseConfig.invoked calls = [] /\
    forall file a p, EvRender file a p ∈ calls -> p = kwargs_xy.
Proof.
  split; [reflexivity|].
  apply (render_all_explicit discovered resolver engine plain_class [] 0
           kwargs_xy w_xy).
  - reflexivity.
  - intros n Hn. simpl in Hn.
    apply elem_of_cons in Hn as [->|Hn]; [by exists (VInt 5)|].
    apply list_elem_of_singleton in Hn as ->. by exists (VInt 7).
Defined.

(** A module with and without a second, non-class binding. *)
Lemma enum_render_local_witness :
  module_with_class !! "Title"
  = ({[ "Title" := RenderableEnum.ObjClass Title ]}
       : gmap string RenderableEnum.PyObj) !! "Title" /\
  RenderableEnum.render "Title" module_with_class
  = RenderableEnum.render "Title" {[ "Title" := RenderableEnum.ObjClass Title ]}.
Proof.
  split; [reflexivity|].
  apply (enum_render_local "Title" module_with_class
           {[ "Title" := RenderableEnum.ObjClass Title ]}).
  reflexivity.
Defined.

(** The member [Title] of an enum whose module binds [plain_class]. *)
Lemma enum_render_config_witness :
  module_with_config !! "Title"
  = Some (RenderableEnum.ObjClass
            (Call.as_renderable discovered resolver engine plain_class)) /\
  exists calls,
    w_calls (RenderableEnum.render "Title" module_with_config w0).2
    = w_calls w0 ++ EvUpdate :: calls /\
    BaseConfig.invoked calls `prefix_of` (discovered plain_class).*1 /\
    (forall v, (RenderableEnum.render "Title" module_with_config w0).1 = Ok v ->
       BaseConfig.invoked calls = (discovered plain_class).*1 /\
       exists file p s e0,
         v = VStr s /\
         (engine file
            (w_cfg (RenderableEnum.render "Title" module_with_config w0).2)
            [] p e0).1
         = Ok s /\
         EvRender file [] p ∈ calls /\
         dom p = list_to_set (discovered plain_class).*1).
Proof.
  split; [reflexivity|].
  apply (enum_render_config discovered resolver engine "Title"
           module_with_config plain_class w0).
  - reflexivity.
  - apply discovered_NoDup.
Defined.

End MoreInstances.
